(** * Plant Margin Simulator: the financial engine and the comparison table

    A shallow embedding of [app_simple.py]: the helpers ([clamp], [money0],
    [money2], [arrow], [delta_class], [colorize]), the engine
    [compute_metrics], the constants [BASELINE], [FORMULAS] and [GROUPS],
    the loop that fills [rows], and the session-state defaults with
    [reset_to_baseline].

    Numbers.  Python's [float] is modelled by the exact rationals [Q]: every
    arithmetic step is the exact one, so rounding, infinities and NaN are
    outside the model.  Numeric equality is [==] ([Qeq]); Leibniz equality
    [=] is used where the code returns the very same value on both sides.
    The properties stated are equalities of whole results, orderings, signs
    and branch choices; identities that need a product or quotient to be
    exact (a ratio times its denominator giving back the numerator, say)
    are left out, since rounding breaks them.

    Errors.  [/] on a zero denominator raises [ZeroDivisionError] and a
    missing dictionary key raises [KeyError]; both are results of the
    [result] monad below, so that "never raises" is a statement one can
    prove. *)

From Stdlib Require Import QArith Qabs ZArith Lqa Lia Bool.
From Stdlib Require Import String Ascii List DecimalString.
Import ListNotations.

Open Scope string_scope.
Open Scope Q_scope.

(* ================================================================== *)
(** ** Python exceptions as values *)
(* ================================================================== *)

Inductive PyExc : Type :=
| ZeroDivisionError
| KeyError (key : string).

Inductive result (A : Type) : Type :=
| Ok (a : A)
| Raise (e : PyExc).

Arguments Ok {A} a.
Arguments Raise {A} e.

Definition bind {A B : Type} (m : result A) (k : A -> result B) : result B :=
  match m with
  | Ok a => k a
  | Raise e => Raise e
  end.

Notation "x <- m ;; k" := (bind m (fun x => k))
  (at level 61, m at next level, right associativity).

(** A [for] loop whose body updates one accumulator and may raise. *)
Fixpoint for_each {A S : Type} (body : S -> A -> result S) (xs : list A) (s : S)
  : result S :=
  match xs with
  | [] => Ok s
  | x :: xs' => s' <- body s x ;; for_each body xs' s'
  end.

(* ================================================================== *)
(** ** Python's numeric built-ins on [Q] *)
(* ================================================================== *)

(** [a < b] as a boolean, in the style of [Qle_bool]. *)
Definition Qlt_bool (a b : Q) : bool :=
  (Qnum a * QDen b <? Qnum b * QDen a)%Z.

(** [a > b] is [b < a]. *)
Definition Qgt_bool (a b : Q) : bool := Qlt_bool b a.

(** Truth value of a number: [if x] takes the branch when [x != 0]. *)
Definition truthy (x : Q) : bool := negb (Qeq_bool x 0).

(** Two-argument [min]: the first argument unless the second is strictly
    smaller. *)
Definition py_min (a b : Q) : Q := if Qlt_bool b a then b else a.

(** Two-argument [max]: the first argument unless the second is strictly
    larger. *)
Definition py_max (a b : Q) : Q := if Qgt_bool b a then b else a.

(** True division [a / b]. *)
Definition truediv (a b : Q) : result Q :=
  if Qeq_bool b 0 then Raise ZeroDivisionError else Ok (a / b).

(* ================================================================== *)
(** ** Helpers *)
(* ================================================================== *)

(** [def clamp(x, lo=0.0, hi=1.0): return max(lo, min(hi, x))].  Every call
    in the program passes [lo] and [hi]. *)
Definition clamp (x lo hi : Q) : Q := py_max lo (py_min hi x).

(** The default of the [tol] argument of [arrow] and [delta_class]. *)
Definition default_tol : Q := 1e-9.

Definition arrow (delta tol : Q) : string :=
  if Qgt_bool delta tol then "▲"
  else if Qlt_bool delta (- tol) then "▼"
  else "●".

Definition delta_class (delta tol : Q) : string :=
  if Qgt_bool delta tol then "pos"
  else if Qlt_bool delta (- tol) then "neg"
  else "neu".

Definition value_class (val : Q) : string :=
  if Qgt_bool val 0 then "neutral" else "neg".

Definition colorize (text : string) (delta : Q) : string :=
  "<span class='" ++ delta_class delta default_tol ++ "'>" ++ text ++ "</span>".

(* ================================================================== *)
(** ** Core financial engine *)
(* ================================================================== *)

(** The ten keyword arguments of [compute_metrics], which are also the keys
    of [BASELINE]. *)
Record ScenarioParameters : Type := mkParams {
  price_per_ton : Q;
  run_rate_tph : Q;
  planned_hours_per_month : Q;
  downtime_hours : Q;
  yield_pct : Q;
  energy_cost_per_ton : Q;
  labor_cost_per_ton : Q;
  scrap_pct : Q;
  other_variable_cost_per_ton : Q;
  fixed_cost_per_month : Q
}.

(** The dictionary [compute_metrics] returns: twelve fixed keys, one field
    each, in the order of the dictionary display. *)
Record MetricsResult : Type := mkMetrics {
  operating_hours : Q;           (* "Operating hours" *)
  tons_processed : Q;            (* "Tons processed" *)
  net_saleable_tons : Q;         (* "Net saleable tons" *)
  revenue : Q;                   (* "Revenue" *)
  variable_cost : Q;             (* "Variable cost" *)
  contribution : Q;              (* "Contribution" *)
  contribution_pct : Q;          (* "Contribution %" *)
  fixed_cost : Q;                (* "Fixed cost" *)
  ebitda : Q;                    (* "EBITDA" *)
  ebitda_pct : Q;                (* "EBITDA %" *)
  var_cost_per_ton : Q;          (* "Var cost / processed ton" *)
  contribution_per_ton : Q       (* "Contribution / processed ton" *)
}.

Definition BASELINE : ScenarioParameters := {|
  price_per_ton := 500.0;
  run_rate_tph := 120.0;
  planned_hours_per_month := 600.0;
  downtime_hours := 40.0;
  yield_pct := 95.0;
  energy_cost_per_ton := 35.0;
  labor_cost_per_ton := 25.0;
  scrap_pct := 1.0;
  other_variable_cost_per_ton := 60.0;
  fixed_cost_per_month := 2_000_000.0
|}.

(** [(num / den) * 100 if den else 0], and the same without the factor. *)
Definition guarded_pct (num den : Q) : result Q :=
  if truthy den then q <- truediv num den ;; Ok (q * 100) else Ok 0.

Definition guarded_ratio (num den : Q) : result Q :=
  if truthy den then truediv num den else Ok 0.

Definition compute_metrics (p : ScenarioParameters) : result MetricsResult :=
  let downtime_hours :=
    py_max 0.0 (py_min (downtime_hours p) (planned_hours_per_month p)) in
  let operating_hours := planned_hours_per_month p - downtime_hours in
  let tons_processed := run_rate_tph p * operating_hours in
  y <- truediv (yield_pct p) 100.0 ;;
  let yield_frac := clamp y 0.50 1.00 in
  s <- truediv (scrap_pct p) 100.0 ;;
  let scrap_frac := clamp s 0.0 0.20 in
  let saleable_tons := tons_processed * yield_frac in
  let net_saleable_tons := saleable_tons * (1.0 - scrap_frac) in
  let revenue := net_saleable_tons * price_per_ton p in
  let variable_cost :=
    tons_processed *
    (energy_cost_per_ton p + labor_cost_per_ton p + other_variable_cost_per_ton p) in
  let contribution := revenue - variable_cost in
  let ebitda := contribution - fixed_cost_per_month p in
  contribution_pct <- guarded_pct contribution revenue ;;
  ebitda_pct <- guarded_pct ebitda revenue ;;
  var_cost_per_ton <- guarded_ratio variable_cost tons_processed ;;
  contribution_per_ton <- guarded_ratio contribution tons_processed ;;
  Ok {|
    operating_hours := operating_hours;
    tons_processed := tons_processed;
    net_saleable_tons := net_saleable_tons;
    revenue := revenue;
    variable_cost := variable_cost;
    contribution := contribution;
    contribution_pct := contribution_pct;
    fixed_cost := fixed_cost_per_month p;
    ebitda := ebitda;
    ebitda_pct := ebitda_pct;
    var_cost_per_ton := var_cost_per_ton;
    contribution_per_ton := contribution_per_ton
  |}.

(* ================================================================== *)
(** ** Fixed-point number formatting: the format specs [.Nf] and [,.Nf] *)
(* ================================================================== *)

(** Nearest integer of a rational, ties to the even one. *)
Definition round_half_even (x : Q) : Z :=
  let n := Qnum x in
  let d := Zpos (Qden x) in
  let q := (n / d)%Z in
  match (2 * (n mod d) ?= d)%Z with
  | Lt => q
  | Gt => (q + 1)%Z
  | Eq => if Z.even q then q else (q + 1)%Z
  end.

Definition digits_of_Z (n : Z) : list ascii :=
  list_ascii_of_string (NilZero.string_of_uint (N.to_uint (Z.to_N n))).

(** Thousands separators, on the digits in reverse order; [n] digits are
    still to come before the next comma. *)
Fixpoint comma_rev (ds : list ascii) (n : nat) : list ascii :=
  match ds with
  | [] => []
  | d :: ds' =>
      match n with
      | O => ","%char :: d :: comma_rev ds' 2
      | S n' => d :: comma_rev ds' n'
      end
  end.

Definition group_thousands (ds : list ascii) : list ascii :=
  rev (comma_rev (rev ds) 3).

Definition zero_pad (width : nat) (ds : list ascii) : list ascii :=
  repeat "0"%char (width - length ds) ++ ds.

(** [format(x, ",.{prec}f")] when [grouping], [format(x, ".{prec}f")]
    otherwise: sign, integer digits, and [prec] decimals after a point. *)
Definition format_f (grouping : bool) (prec : nat) (x : Q) : string :=
  let scale := (10 ^ Z.of_nat prec)%Z in
  let scaled := round_half_even (Qabs x * inject_Z scale) in
  let int_digits := digits_of_Z (scaled / scale) in
  let int_part := if grouping then group_thousands int_digits else int_digits in
  let frac_part :=
    match prec with
    | O => []
    | S _ => "."%char :: zero_pad prec (digits_of_Z (scaled mod scale))
    end in
  (if Qlt_bool x 0 then "-" else "") ++
  string_of_list_ascii (int_part ++ frac_part).

(** [f"${x:,.0f}"] and [f"${x:,.2f}"]. *)
Definition money0 (x : Q) : string := "$" ++ format_f true 0 x.
Definition money2 (x : Q) : string := "$" ++ format_f true 2 x.

(* ================================================================== *)
(** ** Grouped table *)
(* ================================================================== *)

(** Dictionaries with string keys, in insertion order. *)
Definition dict (V : Type) : Type := list (string * V).

Fixpoint has_key {V : Type} (d : dict V) (key : string) : bool :=
  match d with
  | [] => false
  | (k, _) :: d' => if String.eqb k key then true else has_key d' key
  end.

(** [d[key]]. *)
Fixpoint getitem {V : Type} (d : dict V) (key : string) : result V :=
  match d with
  | [] => Raise (KeyError key)
  | (k, v) :: d' => if String.eqb k key then Ok v else getitem d' key
  end.

(** [m in [...]] for a list of strings. *)
Definition in_list (m : string) (l : list string) : bool :=
  existsb (String.eqb m) l.

(** A metrics dictionary seen through its keys. *)
Definition items (r : MetricsResult) : dict Q :=
  [ ("Operating hours", operating_hours r);
    ("Tons processed", tons_processed r);
    ("Net saleable tons", net_saleable_tons r);
    ("Revenue", revenue r);
    ("Variable cost", variable_cost r);
    ("Contribution", contribution r);
    ("Contribution %", contribution_pct r);
    ("Fixed cost", fixed_cost r);
    ("EBITDA", ebitda r);
    ("EBITDA %", ebitda_pct r);
    ("Var cost / processed ton", var_cost_per_ton r);
    ("Contribution / processed ton", contribution_per_ton r) ].

Definition FORMULAS : dict string :=
  [ ("Revenue", "Unit Price × Net Saleable Tons");
    ("Variable cost", "Processed Tons × (Energy + Labor + Other)");
    ("Contribution", "Revenue − Variable Cost");
    ("Contribution %", "Contribution ÷ Revenue");
    ("EBITDA", "Contribution − Fixed Cost");
    ("EBITDA %", "EBITDA ÷ Revenue");
    ("Var cost / processed ton", "Variable Cost ÷ Processed Tons");
    ("Contribution / processed ton", "Contribution ÷ Processed Tons") ].

Definition GROUPS : dict (list string) :=
  [ ("Production & Time",
      [ "Operating hours"; "Tons processed"; "Net saleable tons" ]);
    ("Costs",
      [ "Variable cost"; "Fixed cost" ]);
    ("Financial Results",
      [ "Revenue"; "Contribution"; "Contribution %"; "EBITDA"; "EBITDA %" ]);
    ("Unit Economics",
      [ "Var cost / processed ton"; "Contribution / processed ton" ]) ].

(** One element of [rows]: a dictionary with these four keys. *)
Record Row : Type := mkRow {
  Metric : string;
  Baseline : string;
  Current : string;
  Delta : string
}.

(** The row appended at the top of each group. *)
Definition header_row (group : string) : Row :=
  {| Metric := "<b>" ++ group ++ "</b>"; Baseline := ""; Current := ""; Delta := "" |}.

(** The [if]/[elif] chain that picks the unit of a metric; it opens the body
    of both inner loops and yields [(base_str, curr_str, delta_str)]. *)
Definition cell_strings (m : string) (b c d : Q) : string * string * string :=
  if in_list m [ "Contribution %"; "EBITDA %" ] then
    (format_f false 2 b ++ "%", format_f false 2 c ++ "%", format_f false 2 d ++ " pts")
  else if in_list m [ "Var cost / processed ton"; "Contribution / processed ton" ] then
    (money2 b, money2 c, money2 d)
  else if in_list m [ "Operating hours"; "Tons processed"; "Net saleable tons" ] then
    (format_f true 0 b, format_f true 0 c, format_f true 0 d)
  else
    (money0 b, money0 c, money0 d).

(** The block a formula adds below the number of a baseline cell. *)
Definition formula_div (m formula : string) : string :=
  "<div style='font-size:12px; color:#9ca3af; margin-top:4px;'>" ++
  "(" ++ m ++ " = " ++ formula ++ ")" ++
  "</div>".

(** Body of the first [for m in metrics] loop (source lines 293-331). *)
Definition formula_loop_body (baseline current : MetricsResult)
    (rows : list Row) (m : string) : result (list Row) :=
  b <- getitem (items baseline) m ;;
  c <- getitem (items current) m ;;
  let d := c - b in
  let '(base_str, curr_str, delta_str) := cell_strings m b c d in
  baseline_display <-
    (if has_key FORMULAS m
     then f <- getitem FORMULAS m ;; Ok (base_str ++ formula_div m f)
     else Ok base_str) ;;
  Ok (rows ++ [ {| Metric := m;
                   Baseline := baseline_display;
                   Current := colorize (curr_str ++ " " ++ arrow d default_tol) d;
                   Delta := colorize delta_str d |} ])%list.

(** Body of the second [for m in metrics] loop (source lines 334-361). *)
Definition plain_loop_body (baseline current : MetricsResult)
    (rows : list Row) (m : string) : result (list Row) :=
  b <- getitem (items baseline) m ;;
  c <- getitem (items current) m ;;
  let d := c - b in
  let '(base_str, curr_str, delta_str) := cell_strings m b c d in
  Ok (rows ++ [ {| Metric := m;
                   Baseline := base_str;
                   Current := colorize (curr_str ++ " " ++ arrow d default_tol) d;
                   Delta := colorize delta_str d |} ])%list.

(** Body of [for group, metrics in GROUPS.items()]. *)
Definition group_loop_body (baseline current : MetricsResult)
    (rows : list Row) (g : string * list string) : result (list Row) :=
  let '(group, metrics) := g in
  let rows := (rows ++ [ header_row group ])%list in
  rows <- for_each (formula_loop_body baseline current) metrics rows ;;
  for_each (plain_loop_body baseline current) metrics rows.

(** [rows] as it stands when the outer loop has ended. *)
Definition build_rows (baseline current : MetricsResult) : result (list Row) :=
  for_each (group_loop_body baseline current) GROUPS [].

(** [delta_ebitda = current["EBITDA"] - baseline["EBITDA"]]. *)
Definition delta_ebitda (baseline current : MetricsResult) : result Q :=
  c <- getitem (items current) "EBITDA" ;;
  b <- getitem (items baseline) "EBITDA" ;;
  Ok (c - b).

(** A parameter set with one keyword argument replaced, the other nine kept. *)
Definition with_downtime (p : ScenarioParameters) (d : Q) : ScenarioParameters :=
  {| price_per_ton := price_per_ton p;
     run_rate_tph := run_rate_tph p;
     planned_hours_per_month := planned_hours_per_month p;
     downtime_hours := d;
     yield_pct := yield_pct p;
     energy_cost_per_ton := energy_cost_per_ton p;
     labor_cost_per_ton := labor_cost_per_ton p;
     scrap_pct := scrap_pct p;
     other_variable_cost_per_ton := other_variable_cost_per_ton p;
     fixed_cost_per_month := fixed_cost_per_month p |}.

Definition with_yield (p : ScenarioParameters) (y : Q) : ScenarioParameters :=
  {| price_per_ton := price_per_ton p;
     run_rate_tph := run_rate_tph p;
     planned_hours_per_month := planned_hours_per_month p;
     downtime_hours := downtime_hours p;
     yield_pct := y;
     energy_cost_per_ton := energy_cost_per_ton p;
     labor_cost_per_ton := labor_cost_per_ton p;
     scrap_pct := scrap_pct p;
     other_variable_cost_per_ton := other_variable_cost_per_ton p;
     fixed_cost_per_month := fixed_cost_per_month p |}.

Definition with_scrap (p : ScenarioParameters) (s : Q) : ScenarioParameters :=
  {| price_per_ton := price_per_ton p;
     run_rate_tph := run_rate_tph p;
     planned_hours_per_month := planned_hours_per_month p;
     downtime_hours := downtime_hours p;
     yield_pct := yield_pct p;
     energy_cost_per_ton := energy_cost_per_ton p;
     labor_cost_per_ton := labor_cost_per_ton p;
     scrap_pct := s;
     other_variable_cost_per_ton := other_variable_cost_per_ton p;
     fixed_cost_per_month := fixed_cost_per_month p |}.

(* ================================================================== *)
(** ** Vocabulary of the statements *)
(* ================================================================== *)

(** The local variables of [compute_metrics] that come out of a clamp, as
    functions of the parameters. *)
Definition clamped_downtime (p : ScenarioParameters) : Q :=
  py_max 0.0 (py_min (downtime_hours p) (planned_hours_per_month p)).

Definition yield_frac (p : ScenarioParameters) : Q :=
  clamp (yield_pct p / 100.0) 0.50 1.00.

Definition scrap_frac (p : ScenarioParameters) : Q :=
  clamp (scrap_pct p / 100.0) 0.0 0.20.

(** What [compute_metrics] returns on [BASELINE], with every fraction
    reduced. *)
Definition baseline_metrics : MetricsResult := {|
  operating_hours := 560;
  tons_processed := 67200;
  net_saleable_tons := 63201.6;
  revenue := 31600800;
  variable_cost := 8064000;
  contribution := 23536800;
  contribution_pct := 980700 # 13167;
  fixed_cost := 2000000;
  ebitda := 21536800;
  ebitda_pct := 2692100 # 39501;
  var_cost_per_ton := 120;
  contribution_per_ton := 350.25
|}.

(** Field-wise numeric equality of two results. *)
Definition metrics_eq (r s : MetricsResult) : Prop :=
  operating_hours r == operating_hours s /\
  tons_processed r == tons_processed s /\
  net_saleable_tons r == net_saleable_tons s /\
  revenue r == revenue s /\
  variable_cost r == variable_cost s /\
  contribution r == contribution s /\
  contribution_pct r == contribution_pct s /\
  fixed_cost r == fixed_cost s /\
  ebitda r == ebitda s /\
  ebitda_pct r == ebitda_pct s /\
  var_cost_per_ton r == var_cost_per_ton s /\
  contribution_per_ton r == contribution_per_ton s.

(** The number shown in the baseline cell of metric [m]: the first of the
    three strings of [cell_strings]. *)
Definition base_str (m : string) (b : Q) : string :=
  fst (fst (cell_strings m b b 0)).

(** The baseline cells of the rows of [m], top to bottom. *)
Definition baseline_cells (rows : list Row) (m : string) : list string :=
  map Baseline (filter (fun r => String.eqb (Metric r) m) rows).

(** The Metric column with each group laid out once, as [GROUPS] declares
    it: a header, then the group's metrics. *)
Definition declared_metric_column : list string :=
  flat_map (fun g : string * list string =>
              ("<b>" ++ fst g ++ "</b>") :: snd g) GROUPS.

(** The Metric column the two inner loops produce: a header, then the
    group's metrics, then the group's metrics again. *)
Definition produced_metric_column : list string :=
  flat_map (fun g : string * list string =>
              ("<b>" ++ fst g ++ "</b>") :: (snd g ++ snd g)%list) GROUPS.

(* ================================================================== *)
(** ** Session state defaults and reset *)
(* ================================================================== *)

(** [d[key] = v]: the value is replaced where the key stands, a new key goes
    last. *)
Fixpoint setitem {V : Type} (d : dict V) (key : string) (v : V) : dict V :=
  match d with
  | [] => [ (key, v) ]
  | (k, w) :: d' =>
      if String.eqb k key then (k, v) :: d' else (k, w) :: setitem d' key v
  end.

(** [int(x)] cuts the fraction off, towards zero; [float(x)] keeps the
    number. *)
Definition py_int (x : Q) : Q := inject_Z (Z.quot (Qnum x) (Zpos (Qden x))).
Definition py_float (x : Q) : Q := x.

(** [BASELINE] as the dictionary the source writes, keys in source order. *)
Definition params_items (p : ScenarioParameters) : dict Q :=
  [ ("price_per_ton", price_per_ton p);
    ("run_rate_tph", run_rate_tph p);
    ("planned_hours_per_month", planned_hours_per_month p);
    ("downtime_hours", downtime_hours p);
    ("yield_pct", yield_pct p);
    ("energy_cost_per_ton", energy_cost_per_ton p);
    ("labor_cost_per_ton", labor_cost_per_ton p);
    ("scrap_pct", scrap_pct p);
    ("other_variable_cost_per_ton", other_variable_cost_per_ton p);
    ("fixed_cost_per_month", fixed_cost_per_month p) ].

Definition DEFAULTS : dict Q :=
  [ ("price_per_ton", py_int (price_per_ton BASELINE));
    ("run_rate_tph", py_int (run_rate_tph BASELINE));
    ("planned_hours_per_month", py_int (planned_hours_per_month BASELINE));
    ("downtime_hours", py_int (downtime_hours BASELINE));
    ("yield_pct", py_float (yield_pct BASELINE));
    ("scrap_pct", py_float (scrap_pct BASELINE));
    ("energy_cost_per_ton", py_int (energy_cost_per_ton BASELINE));
    ("labor_cost_per_ton", py_int (labor_cost_per_ton BASELINE));
    ("other_variable_cost_per_ton", py_int (other_variable_cost_per_ton BASELINE));
    ("fixed_cost_per_month", py_int (fixed_cost_per_month BASELINE)) ].

(** [for k, v in defaults.items(): if k not in session_state:
    session_state[k] = v]. *)
Definition fill_missing (defaults session_state : dict Q) : dict Q :=
  fold_left (fun st kv => if has_key st (fst kv) then st
                          else setitem st (fst kv) (snd kv))
            defaults session_state.

(** [for k, v in defaults.items(): session_state[k] = v]. *)
Definition overwrite_all (defaults session_state : dict Q) : dict Q :=
  fold_left (fun st kv => setitem st (fst kv) (snd kv)) defaults session_state.

(** The module-level loop over [DEFAULTS] (source lines 121-123), as a
    function of the session state it finds. *)
Definition init_session_state (session_state : dict Q) : dict Q :=
  fill_missing DEFAULTS session_state.

(** [reset_to_baseline]: the session state it leaves when it hands over to
    [st.rerun()]. *)
Definition reset_to_baseline (session_state : dict Q) : dict Q :=
  overwrite_all DEFAULTS session_state.

(* ================================================================== *)
(** ** More vocabulary *)
(* ================================================================== *)

Definition with_price (p : ScenarioParameters) (price : Q) : ScenarioParameters :=
  {| price_per_ton := price;
     run_rate_tph := run_rate_tph p;
     planned_hours_per_month := planned_hours_per_month p;
     downtime_hours := downtime_hours p;
     yield_pct := yield_pct p;
     energy_cost_per_ton := energy_cost_per_ton p;
     labor_cost_per_ton := labor_cost_per_ton p;
     scrap_pct := scrap_pct p;
     other_variable_cost_per_ton := other_variable_cost_per_ton p;
     fixed_cost_per_month := fixed_cost_per_month p |}.

(** The metric names of all groups, in table order. *)
Definition grouped_metrics : list string := concat (map snd GROUPS).

(** The three sign classes with their glyphs. *)
Definition sign_marks : list (string * string) :=
  [ ("pos", "▲"); ("neg", "▼"); ("neu", "●") ].

(** A header row: only the Metric cell is filled. *)
Definition is_header (r : Row) : Prop :=
  Baseline r = "" /\ Current r = "" /\ Delta r = "".

(** A metric row whose Current and Delta cells are wrapped in the class
    [cls], the Current cell ending in [glyph]. *)
Definition marked_row (cls glyph : string) (r : Row) : Prop :=
  exists value_text delta_text : string,
    Current r = "<span class='" ++ cls ++ "'>" ++ (value_text ++ " " ++ glyph) ++ "</span>" /\
    Delta r = "<span class='" ++ cls ++ "'>" ++ delta_text ++ "</span>".

(* ================================================================== *)
(** * Properties *)
(* ================================================================== *)

(** ** Comparisons, [min], [max] and [clamp] *)

Lemma Qlt_bool_iff (a b : Q) : Qlt_bool a b = true <-> a < b.
Proof. unfold Qlt_bool, Qlt. apply Z.ltb_lt. Qed.

Lemma Qlt_bool_false_iff (a b : Q) : Qlt_bool a b = false <-> b <= a.
Proof. unfold Qlt_bool, Qle. apply Z.ltb_ge. Qed.

Lemma Qlt_bool_spec (a b : Q) : reflect (a < b) (Qlt_bool a b).
Proof. apply iff_reflect. symmetry. apply Qlt_bool_iff. Qed.

Lemma Qlt_bool_irrefl (a : Q) : Qlt_bool a a = false.
Proof. apply Qlt_bool_false_iff. apply Qle_refl. Qed.

Lemma truthy_iff (x : Q) : truthy x = true <-> ~ x == 0.
Proof.
  unfold truthy. rewrite negb_true_iff.
  split.
  - intros H. apply Qeq_bool_neq. exact H.
  - intros H. destruct (Qeq_bool x 0) eqn:E; [ | reflexivity ].
    apply Qeq_bool_eq in E. contradiction.
Qed.

Lemma truthy_false_iff (x : Q) : truthy x = false <-> x == 0.
Proof.
  unfold truthy. rewrite negb_false_iff. apply Qeq_bool_iff.
Qed.

Lemma py_min_spec (a b : Q) :
  (b < a /\ py_min a b = b) \/ (a <= b /\ py_min a b = a).
Proof.
  unfold py_min. destruct (Qlt_bool_spec b a) as [H | H].
  - left. split; [ exact H | reflexivity ].
  - right. split; [ apply Qnot_lt_le; exact H | reflexivity ].
Qed.

Lemma py_max_spec (a b : Q) :
  (a < b /\ py_max a b = b) \/ (b <= a /\ py_max a b = a).
Proof.
  unfold py_max, Qgt_bool. destruct (Qlt_bool_spec a b) as [H | H].
  - left. split; [ exact H | reflexivity ].
  - right. split; [ apply Qnot_lt_le; exact H | reflexivity ].
Qed.

(** Case split on every [py_min] and [py_max] of the goal, innermost first. *)
Ltac case_min_max :=
  repeat match goal with
  | |- context [py_min ?a ?b] =>
      let H := fresh "Hmin" in let E := fresh "Emin" in
      destruct (py_min_spec a b) as [[H E] | [H E]]; rewrite E
  | |- context [py_max ?a ?b] =>
      let H := fresh "Hmax" in let E := fresh "Emax" in
      destruct (py_max_spec a b) as [[H E] | [H E]]; rewrite E
  end.

(** [clamp] lands between its bounds whenever the bounds are in order. *)
Lemma clamp_range (x lo hi : Q) : lo <= hi -> lo <= clamp x lo hi <= hi.
Proof. intros Hb. unfold clamp. case_min_max; lra. Qed.

(** At or below the lower bound, [clamp] returns the bound itself. *)
Lemma clamp_below (x lo hi : Q) : lo <= hi -> x <= lo -> clamp x lo hi = lo.
Proof. intros Hb Hx. unfold clamp. case_min_max; try reflexivity; lra. Qed.

(** At or above the upper bound, [clamp] returns the upper bound itself. *)
Lemma clamp_above (x lo hi : Q) : lo < hi -> hi <= x -> clamp x lo hi = hi.
Proof. intros Hb Hx. unfold clamp. case_min_max; try reflexivity; lra. Qed.

(** ** The engine never raises, and what its fields are *)

Lemma truediv_100 (x : Q) : truediv x 100.0 = Ok (x / 100.0).
Proof. reflexivity. Qed.

Lemma truediv_truthy (num den : Q) :
  truthy den = true -> truediv num den = Ok (num / den).
Proof.
  unfold truthy, truediv. intros H.
  apply negb_true_iff in H. rewrite H. reflexivity.
Qed.

(** Both conditional expressions of the returned dictionary always have a
    value: the division is only reached with a denominator that is not 0. *)
Lemma guarded_pct_eq (num den : Q) :
  guarded_pct num den = Ok (if truthy den then num / den * 100 else 0).
Proof.
  unfold guarded_pct. destruct (truthy den) eqn:E; [ | reflexivity ].
  rewrite (truediv_truthy _ _ E). reflexivity.
Qed.

Lemma guarded_ratio_eq (num den : Q) :
  guarded_ratio num den = Ok (if truthy den then num / den else 0).
Proof.
  unfold guarded_ratio. destruct (truthy den) eqn:E; [ | reflexivity ].
  apply truediv_truthy. exact E.
Qed.

(** A zero denominator yields [0], not an error. *)
Lemma guarded_pct_zero_den (num den : Q) : den == 0 -> guarded_pct num den = Ok 0.
Proof.
  intros H. rewrite guarded_pct_eq.
  apply truthy_false_iff in H. rewrite H. reflexivity.
Qed.

Lemma guarded_ratio_zero_den (num den : Q) : den == 0 -> guarded_ratio num den = Ok 0.
Proof.
  intros H. rewrite guarded_ratio_eq.
  apply truthy_false_iff in H. rewrite H. reflexivity.
Qed.

(** The twelve values [compute_metrics] returns, field by field. *)
Lemma compute_metrics_fields (p : ScenarioParameters) :
  exists r : MetricsResult,
    compute_metrics p = Ok r /\
    operating_hours r = planned_hours_per_month p - clamped_downtime p /\
    tons_processed r = run_rate_tph p * operating_hours r /\
    net_saleable_tons r =
      tons_processed r * yield_frac p * (1.0 - scrap_frac p) /\
    revenue r = net_saleable_tons r * price_per_ton p /\
    variable_cost r =
      tons_processed r *
      (energy_cost_per_ton p + labor_cost_per_ton p + other_variable_cost_per_ton p) /\
    contribution r = revenue r - variable_cost r /\
    contribution_pct r =
      (if truthy (revenue r) then contribution r / revenue r * 100 else 0) /\
    fixed_cost r = fixed_cost_per_month p /\
    ebitda r = contribution r - fixed_cost_per_month p /\
    ebitda_pct r =
      (if truthy (revenue r) then ebitda r / revenue r * 100 else 0) /\
    var_cost_per_ton r =
      (if truthy (tons_processed r) then variable_cost r / tons_processed r else 0) /\
    contribution_per_ton r =
      (if truthy (tons_processed r) then contribution r / tons_processed r else 0).
Proof.
  unfold compute_metrics.
  rewrite !truediv_100. cbn [bind].
  rewrite !guarded_pct_eq. cbn [bind].
  rewrite !guarded_ratio_eq. cbn [bind].
  eexists. split; [ reflexivity | ].
  cbn [operating_hours tons_processed net_saleable_tons revenue variable_cost
       contribution contribution_pct fixed_cost ebitda ebitda_pct
       var_cost_per_ton contribution_per_ton].
  repeat split.
Qed.

Lemma compute_metrics_never_raises (p : ScenarioParameters) :
  exists r : MetricsResult, compute_metrics p = Ok r.
Proof.
  destruct (compute_metrics_fields p) as [r [H _]]. exists r. exact H.
Qed.

(* ================================================================== *)
(** ** The reference scenario *)
(* ================================================================== *)

Lemma compute_metrics_BASELINE :
  exists r, compute_metrics BASELINE = Ok r /\ metrics_eq r baseline_metrics.
Proof.
  eexists. split; [ vm_compute; reflexivity | ].
  repeat split; vm_compute; reflexivity.
Qed.

(** C2, as amended: on the baseline parameter set the engine returns
    operating hours 560, tons processed 67,200, net saleable tons
    67200 x 0.95 x 0.99 = 63,201.6, revenue 63201.6 x 500 = 31,600,800,
    variable cost 8,064,000, contribution 23,536,800 and EBITDA
    21,536,800. *)
Theorem reference_scenario :
  exists r,
    compute_metrics BASELINE = Ok r /\
    operating_hours r == 560 /\
    tons_processed r == 67200 /\
    net_saleable_tons r == 63201.6 /\
    revenue r == 31600800 /\
    variable_cost r == 8064000 /\
    contribution r == 23536800 /\
    ebitda r == 21536800.
Proof.
  eexists. split; [ vm_compute; reflexivity | ].
  repeat split; vm_compute; reflexivity.
Qed.

(** C2, as stated, fails: the net saleable tons of the baseline are not
    63,223.2, and neither revenue, contribution nor EBITDA have the values
    derived from that figure. *)
Lemma reference_scenario_not_as_stated :
  exists r,
    compute_metrics BASELINE = Ok r /\
    ~ net_saleable_tons r == 63223.2 /\
    ~ revenue r == 31611600 /\
    ~ contribution r == 23547600 /\
    ~ ebitda r == 21547600.
Proof.
  eexists. split; [ vm_compute; reflexivity | ].
  repeat split; intros H; vm_compute in H; discriminate H.
Qed.

(* ================================================================== *)
(** ** Sign classification and the arrow glyph *)
(* ================================================================== *)

Lemma delta_class_pos_iff (delta tol : Q) :
  delta_class delta tol = "pos" <-> tol < delta.
Proof.
  unfold delta_class, Qgt_bool.
  destruct (Qlt_bool_spec tol delta) as [H | H].
  - tauto.
  - destruct (Qlt_bool delta (- tol)); split; intros K;
      solve [ discriminate K | contradiction ].
Qed.

Lemma delta_class_neg_iff (delta tol : Q) :
  0 <= tol -> (delta_class delta tol = "neg" <-> delta < - tol).
Proof.
  intros Htol. unfold delta_class, Qgt_bool.
  destruct (Qlt_bool_spec tol delta) as [H | H];
    destruct (Qlt_bool_spec delta (- tol)) as [K | K];
    split; intros L; try discriminate L; try reflexivity; try assumption; lra.
Qed.

Lemma delta_class_neu_iff (delta tol : Q) :
  delta_class delta tol = "neu" <-> - tol <= delta <= tol.
Proof.
  unfold delta_class, Qgt_bool.
  destruct (Qlt_bool_spec tol delta) as [H | H];
    destruct (Qlt_bool_spec delta (- tol)) as [K | K];
    split; intros L; try discriminate L; try reflexivity; lra.
Qed.

(** C3, as amended: with tolerance 1e-9 a delta of exactly +0.000000001,
    of exactly 0 and of exactly -0.000000001 are all neutral; a delta is
    positive exactly when it is above 1e-9, negative exactly when it is
    below -1e-9, and neutral exactly in between, bounds included. *)
Theorem sign_classification_boundary :
  delta_class 0.000000001 default_tol = "neu" /\
  delta_class 0 default_tol = "neu" /\
  delta_class (-0.000000001) default_tol = "neu" /\
  forall delta : Q,
    (delta_class delta default_tol = "pos" <-> 1e-9 < delta) /\
    (delta_class delta default_tol = "neg" <-> delta < -1e-9) /\
    (delta_class delta default_tol = "neu" <-> -1e-9 <= delta <= 1e-9).
Proof.
  split; [ reflexivity | ].
  split; [ reflexivity | ].
  split; [ reflexivity | ].
  intros delta. split; [ | split ].
  - apply delta_class_pos_iff.
  - apply (delta_class_neg_iff delta default_tol). unfold default_tol, Qle. simpl. lia.
  - apply (delta_class_neu_iff delta default_tol).
Qed.

(** C3, as stated, fails at both boundaries: +0.000000001 is not classified
    positive and -0.000000001 is not classified negative. *)
Lemma sign_classification_not_as_stated :
  delta_class 0.000000001 default_tol = "neu" /\
  delta_class 0.000000001 default_tol <> "pos" /\
  delta_class (-0.000000001) default_tol = "neu" /\
  delta_class (-0.000000001) default_tol <> "neg".
Proof.
  repeat split; try reflexivity; intros H; vm_compute in H; discriminate H.
Qed.

(** [arrow] and [delta_class] take the same branch for any shared
    tolerance. *)
Lemma arrow_delta_class_tol (delta tol : Q) :
  (arrow delta tol = "▲" /\ delta_class delta tol = "pos") \/
  (arrow delta tol = "▼" /\ delta_class delta tol = "neg") \/
  (arrow delta tol = "●" /\ delta_class delta tol = "neu").
Proof.
  unfold arrow, delta_class.
  destruct (Qgt_bool delta tol); [ left; split; reflexivity | ].
  destruct (Qlt_bool delta (- tol)); right; [ left | right ]; split; reflexivity.
Qed.

(** C9: the glyph and the class agree for every delta: "▲" exactly with
    "pos", "▼" exactly with "neg", "●" exactly with "neu", both at the
    default tolerance 1e-9. *)
Theorem arrow_agrees_with_delta_class :
  forall delta : Q,
    (arrow delta default_tol = "▲" <-> delta_class delta default_tol = "pos") /\
    (arrow delta default_tol = "▼" <-> delta_class delta default_tol = "neg") /\
    (arrow delta default_tol = "●" <-> delta_class delta default_tol = "neu").
Proof.
  intros delta.
  destruct (arrow_delta_class_tol delta default_tol)
    as [[Ha Hc] | [[Ha Hc] | [Ha Hc]]];
    rewrite Ha, Hc;
    repeat split; intros H; try reflexivity; discriminate H.
Qed.

(* ================================================================== *)
(** ** Clamping *)
(* ================================================================== *)

Lemma div_100_le (x c : Q) : x <= c * 100 -> x / 100.0 <= c.
Proof.
  intros H. unfold Qdiv. change (/ 100.0) with (10 # 1000). lra.
Qed.

Lemma div_100_ge (x c : Q) : c * 100 <= x -> c <= x / 100.0.
Proof.
  intros H. unfold Qdiv. change (/ 100.0) with (10 # 1000). lra.
Qed.

(** Downtime above the planned hours is cut down to the planned hours. *)
Lemma downtime_clamped (p : ScenarioParameters) (d : Q) :
  planned_hours_per_month p < d ->
  compute_metrics (with_downtime p d) =
  compute_metrics (with_downtime p (planned_hours_per_month p)).
Proof.
  intros H. unfold compute_metrics.
  cbn [with_downtime downtime_hours planned_hours_per_month].
  assert (E : py_min d (planned_hours_per_month p) =
              py_min (planned_hours_per_month p) (planned_hours_per_month p)).
  { unfold py_min. rewrite Qlt_bool_irrefl.
    apply Qlt_bool_iff in H. rewrite H. reflexivity. }
  rewrite E. reflexivity.
Qed.

(** Any yield of at most 50% gives the result of 50%. *)
Lemma yield_clamped (p : ScenarioParameters) (y : Q) :
  y <= 50 -> compute_metrics (with_yield p y) = compute_metrics (with_yield p 50).
Proof.
  intros H. unfold compute_metrics.
  cbn [with_yield yield_pct].
  rewrite !truediv_100. cbn [bind].
  rewrite (clamp_below (y / 100.0) 0.50 1.00);
    [ | lra | apply div_100_le; lra ].
  rewrite (clamp_below (50 / 100.0) 0.50 1.00);
    [ | lra | apply div_100_le; lra ].
  reflexivity.
Qed.

(** Any scrap of at least 20% gives the result of 20%. *)
Lemma scrap_clamped (p : ScenarioParameters) (s : Q) :
  20 <= s -> compute_metrics (with_scrap p s) = compute_metrics (with_scrap p 20).
Proof.
  intros H. unfold compute_metrics.
  cbn [with_scrap scrap_pct].
  rewrite !truediv_100. cbn [bind].
  rewrite (clamp_above (s / 100.0) 0.0 0.20);
    [ | lra | apply div_100_ge; lra ].
  rewrite (clamp_above (20 / 100.0) 0.0 0.20);
    [ | lra | apply div_100_ge; lra ].
  reflexivity.
Qed.

(** C5: an out-of-range input gives the result of its clamp boundary:
    downtime above the planned hours that of downtime equal to the planned
    hours, yield 40 that of yield 50, scrap 50 that of scrap 20. *)
Theorem out_of_range_equals_clamp_boundary :
  forall (p : ScenarioParameters) (d : Q),
    planned_hours_per_month p < d ->
    compute_metrics (with_downtime p d) =
      compute_metrics (with_downtime p (planned_hours_per_month p)) /\
    compute_metrics (with_yield p 40) = compute_metrics (with_yield p 50) /\
    compute_metrics (with_scrap p 50) = compute_metrics (with_scrap p 20).
Proof.
  intros p d H. split; [ | split ].
  - apply downtime_clamped. exact H.
  - apply yield_clamped. lra.
  - apply scrap_clamped. lra.
Qed.

(** C5 at the baseline, with 700 hours of downtime against 600 planned. *)
Lemma out_of_range_equals_clamp_boundary_witness :
  planned_hours_per_month BASELINE < 700 /\
  compute_metrics (with_downtime BASELINE 700) =
    compute_metrics (with_downtime BASELINE (planned_hours_per_month BASELINE)) /\
  compute_metrics (with_yield BASELINE 40) = compute_metrics (with_yield BASELINE 50) /\
  compute_metrics (with_scrap BASELINE 50) = compute_metrics (with_scrap BASELINE 20).
Proof.
  split.
  - reflexivity.
  - apply (out_of_range_equals_clamp_boundary BASELINE 700). reflexivity.
Defined.

(* ================================================================== *)
(** ** Variable cost *)
(* ================================================================== *)

(** C6: the variable cost of a result is its processed tons times the sum
    of the three per-ton costs. *)
Theorem variable_cost_scales_with_processed_tons :
  forall p : ScenarioParameters,
  exists r : MetricsResult,
    compute_metrics p = Ok r /\
    variable_cost r =
      tons_processed r *
      (energy_cost_per_ton p + labor_cost_per_ton p + other_variable_cost_per_ton p).
Proof.
  intros p.
  destruct (compute_metrics_fields p) as [r [H [_ [_ [_ [_ [Hvc _]]]]]]].
  exists r. split; [ exact H | exact Hvc ].
Qed.

(** Yield and scrap do not enter the variable cost. *)
Lemma variable_cost_ignores_yield_and_scrap (p : ScenarioParameters) (y s : Q) :
  exists r r' : MetricsResult,
    compute_metrics p = Ok r /\
    compute_metrics (with_scrap (with_yield p y) s) = Ok r' /\
    variable_cost r' = variable_cost r.
Proof.
  destruct (compute_metrics_fields p)
    as [r [H [Hoh [Htp [_ [_ [Hvc _]]]]]]].
  destruct (compute_metrics_fields (with_scrap (with_yield p y) s))
    as [r' [H' [Hoh' [Htp' [_ [_ [Hvc' _]]]]]]].
  exists r, r'. split; [ exact H | split; [ exact H' | ] ].
  rewrite Hvc, Hvc', Htp, Htp', Hoh, Hoh'. reflexivity.
Qed.

(* ================================================================== *)
(** ** Zero operating hours, and the bounds on net saleable tons *)
(* ================================================================== *)

Lemma clamped_downtime_range (p : ScenarioParameters) :
  0 <= planned_hours_per_month p ->
  0 <= clamped_downtime p <= planned_hours_per_month p.
Proof.
  intros H. unfold clamped_downtime. case_min_max; lra.
Qed.

Lemma clamped_downtime_full (p : ScenarioParameters) :
  downtime_hours p == planned_hours_per_month p ->
  0 <= planned_hours_per_month p ->
  clamped_downtime p == planned_hours_per_month p.
Proof.
  intros E H. unfold clamped_downtime. case_min_max; lra.
Qed.

Lemma yield_frac_range (p : ScenarioParameters) : 0.50 <= yield_frac p <= 1.00.
Proof. apply clamp_range. lra. Qed.

Lemma scrap_frac_range (p : ScenarioParameters) : 0.0 <= scrap_frac p <= 0.20.
Proof. apply clamp_range. lra. Qed.

(** C4: with downtime equal to the planned hours (zero operating hours) the
    engine returns a result, without raising, in which tons processed,
    revenue, contribution %, EBITDA %, variable cost per ton and
    contribution per ton are all 0. *)
Theorem zero_operating_hours :
  forall p : ScenarioParameters,
    downtime_hours p == planned_hours_per_month p ->
    0 <= planned_hours_per_month p ->
    exists r : MetricsResult,
      compute_metrics p = Ok r /\
      operating_hours r == 0 /\
      tons_processed r == 0 /\
      revenue r == 0 /\
      contribution_pct r == 0 /\
      ebitda_pct r == 0 /\
      var_cost_per_ton r == 0 /\
      contribution_per_ton r == 0.
Proof.
  intros p E Hplanned.
  destruct (compute_metrics_fields p)
    as [r [H [Hoh [Htp [Hnet [Hrev [_ [_ [Hcp [_ [_ [Hep [Hvt Hct]]]]]]]]]]]]].
  pose proof (clamped_downtime_full p E Hplanned) as Hd.
  assert (Z1 : operating_hours r == 0) by (rewrite Hoh; lra).
  assert (Z2 : tons_processed r == 0) by (rewrite Htp, Z1; ring).
  assert (Z3 : revenue r == 0) by (rewrite Hrev, Hnet, Z2; ring).
  apply truthy_false_iff in Z2 as T2.
  apply truthy_false_iff in Z3 as T3.
  rewrite T3 in Hcp, Hep. rewrite T2 in Hvt, Hct.
  exists r. rewrite Hcp, Hep, Hvt, Hct.
  repeat split; try assumption; reflexivity.
Qed.

(** C4 at the baseline with its downtime raised to the 600 planned hours. *)
Lemma zero_operating_hours_witness :
  downtime_hours (with_downtime BASELINE 600.0) ==
    planned_hours_per_month (with_downtime BASELINE 600.0) /\
  0 <= planned_hours_per_month (with_downtime BASELINE 600.0) /\
  exists r : MetricsResult,
    compute_metrics (with_downtime BASELINE 600.0) = Ok r /\
    operating_hours r == 0 /\
    tons_processed r == 0 /\
    revenue r == 0 /\
    contribution_pct r == 0 /\
    ebitda_pct r == 0 /\
    var_cost_per_ton r == 0 /\
    contribution_per_ton r == 0.
Proof.
  split; [ reflexivity | ].
  split; [ unfold Qle; simpl; lia | ].
  apply (zero_operating_hours (with_downtime BASELINE 600.0)).
  - reflexivity.
  - unfold Qle. simpl. lia.
Defined.

(** Planned hours are non-negative by declaration (the slider runs from 200
    to 744).  Below zero the clamp on downtime yields 0, so equal planned
    and downtime hours then leave the negative planned hours as operating
    hours. *)
Remark negative_planned_hours_outside_domain :
  exists r : MetricsResult,
    compute_metrics
      (with_downtime
         {| price_per_ton := 500; run_rate_tph := 120;
            planned_hours_per_month := -5; downtime_hours := 0;
            yield_pct := 95; energy_cost_per_ton := 35;
            labor_cost_per_ton := 25; scrap_pct := 1;
            other_variable_cost_per_ton := 60;
            fixed_cost_per_month := 2000000 |} (-5)) = Ok r /\
    operating_hours r == -5 /\
    tons_processed r == -600.
Proof.
  eexists. split; [ vm_compute; reflexivity | ].
  split; vm_compute; reflexivity.
Qed.

Lemma scale_by_fraction (x w : Q) :
  0 <= x -> 0.4 <= w <= 1 -> 0.4 * x <= x * w <= x.
Proof. intros Hx Hw. split; nra. Qed.

(** C10: with non-negative run rate and planned hours, whatever the yield
    and scrap inputs are, 0 <= 0.4 x tons processed <= net saleable tons
    <= tons processed. *)
Theorem net_saleable_tons_bounds :
  forall p : ScenarioParameters,
    0 <= run_rate_tph p ->
    0 <= planned_hours_per_month p ->
    exists r : MetricsResult,
      compute_metrics p = Ok r /\
      0 <= 0.4 * tons_processed r /\
      0.4 * tons_processed r <= net_saleable_tons r /\
      net_saleable_tons r <= tons_processed r.
Proof.
  intros p Hrate Hplanned.
  destruct (compute_metrics_fields p) as [r [H [Hoh [Htp [Hnet _]]]]].
  pose proof (clamped_downtime_range p Hplanned) as Hd.
  pose proof (yield_frac_range p) as Hy.
  pose proof (scrap_frac_range p) as Hs.
  assert (Hop : 0 <= operating_hours r) by (rewrite Hoh; lra).
  assert (Htons : 0 <= tons_processed r).
  { rewrite Htp. apply Qmult_le_0_compat; assumption. }
  assert (Hw : 0.4 <= yield_frac p * (1.0 - scrap_frac p) <= 1) by (split; nra).
  assert (E : net_saleable_tons r ==
              tons_processed r * (yield_frac p * (1.0 - scrap_frac p)))
    by (rewrite Hnet; ring).
  destruct (scale_by_fraction _ _ Htons Hw) as [Hlo Hhi].
  exists r. split; [ exact H | ].
  rewrite E. split; [ lra | split; assumption ].
Qed.

(** C10 at the baseline. *)
Lemma net_saleable_tons_bounds_witness :
  0 <= run_rate_tph BASELINE /\
  0 <= planned_hours_per_month BASELINE /\
  exists r : MetricsResult,
    compute_metrics BASELINE = Ok r /\
    0 <= 0.4 * tons_processed r /\
    0.4 * tons_processed r <= net_saleable_tons r /\
    net_saleable_tons r <= tons_processed r.
Proof.
  split; [ unfold Qle; simpl; lia | ].
  split; [ unfold Qle; simpl; lia | ].
  apply (net_saleable_tons_bounds BASELINE); unfold Qle; simpl; lia.
Defined.

(* ================================================================== *)
(** ** The grouped table *)
(* ================================================================== *)

Lemma declared_metric_column_eq :
  declared_metric_column =
  [ "<b>Production & Time</b>";
    "Operating hours"; "Tons processed"; "Net saleable tons";
    "<b>Costs</b>";
    "Variable cost"; "Fixed cost";
    "<b>Financial Results</b>";
    "Revenue"; "Contribution"; "Contribution %"; "EBITDA"; "EBITDA %";
    "<b>Unit Economics</b>";
    "Var cost / processed ton"; "Contribution / processed ton" ].
Proof. reflexivity. Qed.

Lemma produced_metric_column_eq :
  produced_metric_column =
  [ "<b>Production & Time</b>";
    "Operating hours"; "Tons processed"; "Net saleable tons";
    "Operating hours"; "Tons processed"; "Net saleable tons";
    "<b>Costs</b>";
    "Variable cost"; "Fixed cost";
    "Variable cost"; "Fixed cost";
    "<b>Financial Results</b>";
    "Revenue"; "Contribution"; "Contribution %"; "EBITDA"; "EBITDA %";
    "Revenue"; "Contribution"; "Contribution %"; "EBITDA"; "EBITDA %";
    "<b>Unit Economics</b>";
    "Var cost / processed ton"; "Contribution / processed ton";
    "Var cost / processed ton"; "Contribution / processed ton" ].
Proof. reflexivity. Qed.

(** Run the loops on symbolic metrics: keys and group structure are
    evaluated, numbers and their formatting are left as they stand. *)
Ltac run_loops :=
  cbv -[format_f money0 money2 colorize arrow formula_div Qminus append
        operating_hours tons_processed net_saleable_tons revenue
        variable_cost contribution contribution_pct fixed_cost ebitda
        ebitda_pct var_cost_per_ton contribution_per_ton].

Lemma append_eq_self (s t : string) : s ++ t = s -> t = "".
Proof.
  induction s as [ | a s IH ]; simpl; intros H.
  - exact H.
  - injection H as H. apply IH. exact H.
Qed.

(** A cell with a formula block is never the bare number. *)
Lemma formula_cell_differs (number m f : string) :
  number ++ formula_div m f <> number.
Proof.
  intros H. apply append_eq_self in H.
  unfold formula_div in H. simpl in H. discriminate H.
Qed.

(** No key is missing: the loops end without [KeyError]. *)
Lemma build_rows_never_raises (baseline current : MetricsResult) :
  exists rows, build_rows baseline current = Ok rows.
Proof. eexists. run_loops. reflexivity. Qed.

(** C1 (the code departs from it): for every baseline and current the
    table has 4 group headers, but each header is followed by the group's
    metric rows twice over, in declared order each time: 28 rows, not the
    16 of the declared layout. *)
Theorem rows_repeat_each_group :
  forall baseline current : MetricsResult,
  exists rows : list Row,
    build_rows baseline current = Ok rows /\
    map Metric rows = produced_metric_column /\
    length rows = 28%nat /\
    map Metric rows <> declared_metric_column.
Proof.
  intros baseline current. eexists.
  split; [ run_loops; reflexivity | ].
  split; [ reflexivity | ].
  split; [ reflexivity | ].
  intros H. discriminate H.
Qed.

(** C8 (the code departs from it): for every baseline and current, each
    metric with a formula has two rows, the first with the formula block in
    its baseline cell and the second with the bare number; each metric
    without a formula has two rows with the bare number. *)
Theorem formula_only_on_first_pass :
  forall baseline current : MetricsResult,
  exists rows : list Row,
    build_rows baseline current = Ok rows /\
    Forall (fun mf : string * string =>
              let (m, f) := mf in
              exists b : Q,
                getitem (items baseline) m = Ok b /\
                baseline_cells rows m =
                  [ base_str m b ++ formula_div m f; base_str m b ])
           FORMULAS /\
    Forall (fun m : string =>
              exists b : Q,
                getitem (items baseline) m = Ok b /\
                baseline_cells rows m = [ base_str m b; base_str m b ])
           [ "Operating hours"; "Tons processed"; "Net saleable tons";
             "Fixed cost" ].
Proof.
  intros baseline current. eexists.
  split; [ run_loops; reflexivity | ].
  split;
    repeat (apply Forall_cons; [ eexists; split; reflexivity | ]);
    apply Forall_nil.
Qed.

(** The table of the baseline against itself: the Metric column, and the
    two baseline cells of the Revenue rows. *)
Example rows_at_baseline :
  exists (r : MetricsResult) (rows : list Row),
    compute_metrics BASELINE = Ok r /\
    build_rows r r = Ok rows /\
    map Metric rows = produced_metric_column /\
    baseline_cells rows "Revenue" =
      [ "$31,600,800<div style='font-size:12px; color:#9ca3af; margin-top:4px;'>(Revenue = Unit Price × Net Saleable Tons)</div>";
        "$31,600,800" ] /\
    baseline_cells rows "Fixed cost" = [ "$2,000,000"; "$2,000,000" ].
Proof.
  eexists. eexists.
  split; [ vm_compute; reflexivity | ].
  split; [ vm_compute; reflexivity | ].
  repeat split; vm_compute; reflexivity.
Qed.

(* ================================================================== *)
(** * Further properties *)
(* ================================================================== *)

(** ** [clamp] *)

(** X1: with bounds in order, [clamp] returns a value between them, and a
    value already between them comes back numerically unchanged. *)
Theorem clamp_within_bounds :
  forall x lo hi : Q,
    lo <= hi ->
    lo <= clamp x lo hi <= hi /\
    (lo <= x <= hi -> clamp x lo hi == x).
Proof.
  intros x lo hi Hb. split.
  - apply clamp_range. exact Hb.
  - intros Hx. unfold clamp. case_min_max; lra.
Qed.

Lemma clamp_within_bounds_witness :
  0.50 <= 1.00 /\
  (0.50 <= clamp 0.95 0.50 1.00 <= 1.00 /\
   (0.50 <= 0.95 <= 1.00 -> clamp 0.95 0.50 1.00 == 0.95)).
Proof.
  split; [ unfold Qle; simpl; lia | ].
  apply (clamp_within_bounds 0.95 0.50 1.00). unfold Qle. simpl. lia.
Defined.

(** X2: clamping twice is clamping once, whatever the bounds. *)
Theorem clamp_idempotent :
  forall x lo hi : Q, clamp (clamp x lo hi) lo hi = clamp x lo hi.
Proof.
  intros x lo hi. unfold clamp.
  destruct (py_min_spec hi x) as [[H1 E1] | [H1 E1]]; rewrite E1;
    destruct (py_max_spec lo x) as [[H2 E2] | [H2 E2]];
    destruct (py_max_spec lo hi) as [[H3 E3] | [H3 E3]];
    rewrite ?E2, ?E3;
    case_min_max; try reflexivity; lra.
Qed.

(** X3: [clamp] is monotone in its first argument, whatever the bounds. *)
Theorem clamp_monotone :
  forall x y lo hi : Q, x <= y -> clamp x lo hi <= clamp y lo hi.
Proof.
  intros x y lo hi H. unfold clamp. case_min_max; lra.
Qed.

Lemma clamp_monotone_witness :
  0.4 <= 0.95 /\ clamp 0.4 0.50 1.00 <= clamp 0.95 0.50 1.00.
Proof.
  split; [ unfold Qle; simpl; lia | ].
  apply (clamp_monotone 0.4 0.95 0.50 1.00). unfold Qle. simpl. lia.
Defined.

(** X4: with the bounds the wrong way round, [clamp] returns [lo] for every
    input. *)
Theorem clamp_inverted_bounds :
  forall x lo hi : Q, hi < lo -> clamp x lo hi = lo.
Proof.
  intros x lo hi H. unfold clamp. case_min_max; try reflexivity; lra.
Qed.

Lemma clamp_inverted_bounds_witness :
  0.20 < 0.50 /\ clamp 0.3 0.50 0.20 = 0.50.
Proof.
  split; [ reflexivity | ].
  apply (clamp_inverted_bounds 0.3 0.50 0.20). reflexivity.
Defined.

(** ** The engine on inputs inside and outside the clamp ranges *)

Lemma div_100_eq (x : Q) : x / 100.0 == x * (1 # 100).
Proof. unfold Qdiv. change (/ 100.0) with (10 # 1000). ring. Qed.

(** X5: inputs inside the clamp ranges pass unchanged: with downtime in
    [0, planned], yield in [50, 100] and scrap in [0, 20], operating hours
    are planned minus downtime and net saleable tons are processed tons
    times yield/100 times (1 - scrap/100). *)
Theorem in_range_inputs_not_clamped :
  forall p : ScenarioParameters,
    0 <= downtime_hours p <= planned_hours_per_month p ->
    50 <= yield_pct p <= 100 ->
    0 <= scrap_pct p <= 20 ->
    exists r : MetricsResult,
      compute_metrics p = Ok r /\
      operating_hours r == planned_hours_per_month p - downtime_hours p /\
      net_saleable_tons r ==
        tons_processed r * (yield_pct p / 100) * (1 - scrap_pct p / 100).
Proof.
  intros p Hd Hy Hs.
  destruct (compute_metrics_fields p) as [r [H [Hoh [Htp [Hnet _]]]]].
  exists r. split; [ exact H | ].
  assert (Ed : clamped_downtime p == downtime_hours p).
  { unfold clamped_downtime. case_min_max; lra. }
  assert (Ey : yield_frac p == yield_pct p * (1 # 100)).
  { unfold yield_frac, clamp.
    pose proof (div_100_eq (yield_pct p)) as E. case_min_max; lra. }
  assert (Es : scrap_frac p == scrap_pct p * (1 # 100)).
  { unfold scrap_frac, clamp.
    pose proof (div_100_eq (scrap_pct p)) as E. case_min_max; lra. }
  split.
  - rewrite Hoh, Ed. reflexivity.
  - rewrite Hnet, Ey, Es. field.
Qed.

Lemma in_range_inputs_not_clamped_witness :
  0 <= downtime_hours BASELINE <= planned_hours_per_month BASELINE /\
  50 <= yield_pct BASELINE <= 100 /\
  0 <= scrap_pct BASELINE <= 20 /\
  exists r : MetricsResult,
    compute_metrics BASELINE = Ok r /\
    operating_hours r ==
      planned_hours_per_month BASELINE - downtime_hours BASELINE /\
    net_saleable_tons r ==
      tons_processed r * (yield_pct BASELINE / 100) * (1 - scrap_pct BASELINE / 100).
Proof.
  split; [ split; unfold Qle; simpl; lia | ].
  split; [ split; unfold Qle; simpl; lia | ].
  split; [ split; unfold Qle; simpl; lia | ].
  apply (in_range_inputs_not_clamped BASELINE);
    split; unfold Qle; simpl; lia.
Defined.

(** X6: the other side of each clamp: downtime at or below 0 gives the
    result of downtime 0, yield at or above 100 that of yield 100, scrap at
    or below 0 that of scrap 0. *)
Theorem out_of_range_low_downtime_high_yield_low_scrap :
  forall (p : ScenarioParameters) (d y s : Q),
    d <= 0 -> 100 <= y -> s <= 0 ->
    compute_metrics (with_downtime p d) = compute_metrics (with_downtime p 0) /\
    compute_metrics (with_yield p y) = compute_metrics (with_yield p 100) /\
    compute_metrics (with_scrap p s) = compute_metrics (with_scrap p 0).
Proof.
  intros p d y s Hd Hy Hs. split; [ | split ].
  - unfold compute_metrics.
    cbn [with_downtime downtime_hours planned_hours_per_month].
    assert (E : py_max 0.0 (py_min d (planned_hours_per_month p)) =
                py_max 0.0 (py_min 0 (planned_hours_per_month p))).
    { case_min_max; try reflexivity; lra. }
    rewrite E. reflexivity.
  - unfold compute_metrics. cbn [with_yield yield_pct].
    rewrite !truediv_100. cbn [bind].
    rewrite (clamp_above (y / 100.0) 0.50 1.00);
      [ | lra | apply div_100_ge; lra ].
    rewrite (clamp_above (100 / 100.0) 0.50 1.00);
      [ | lra | apply div_100_ge; lra ].
    reflexivity.
  - unfold compute_metrics. cbn [with_scrap scrap_pct].
    rewrite !truediv_100. cbn [bind].
    rewrite (clamp_below (s / 100.0) 0.0 0.20);
      [ | lra | apply div_100_le; lra ].
    rewrite (clamp_below (0 / 100.0) 0.0 0.20);
      [ | lra | apply div_100_le; lra ].
    reflexivity.
Qed.

Lemma out_of_range_low_downtime_high_yield_low_scrap_witness :
  -3 <= 0 /\ 100 <= 120 /\ -1 <= 0 /\
  compute_metrics (with_downtime BASELINE (-3)) =
    compute_metrics (with_downtime BASELINE 0) /\
  compute_metrics (with_yield BASELINE 120) =
    compute_metrics (with_yield BASELINE 100) /\
  compute_metrics (with_scrap BASELINE (-1)) =
    compute_metrics (with_scrap BASELINE 0).
Proof.
  split; [ unfold Qle; simpl; lia | ].
  split; [ unfold Qle; simpl; lia | ].
  split; [ unfold Qle; simpl; lia | ].
  apply (out_of_range_low_downtime_high_yield_low_scrap BASELINE (-3) 120 (-1));
    unfold Qle; simpl; lia.
Defined.

(** ** Zero revenue *)

(** X9: when revenue is 0 (a price of 0, say), contribution % and EBITDA %
    are reported as 0 although the contribution is minus the variable cost
    and the EBITDA is that minus the fixed cost. *)
Theorem zero_revenue_reports_zero_percent :
  forall (p : ScenarioParameters) (r : MetricsResult),
    compute_metrics p = Ok r ->
    revenue r == 0 ->
    contribution_pct r = 0 /\
    ebitda_pct r = 0 /\
    contribution r == - variable_cost r /\
    ebitda r == - variable_cost r - fixed_cost_per_month p.
Proof.
  intros p r Hr Hz.
  destruct (compute_metrics_fields p)
    as [r' [H [_ [_ [_ [_ [_ [Hc [Hcp [_ [Heb [Hep _]]]]]]]]]]]].
  rewrite Hr in H. injection H as <-.
  apply truthy_false_iff in Hz as T. rewrite T in Hcp, Hep.
  repeat split; try assumption.
  - rewrite Hc, Hz. ring.
  - rewrite Heb, Hc, Hz. ring.
Qed.

Lemma zero_revenue_reports_zero_percent_witness :
  exists r : MetricsResult,
    compute_metrics (with_price BASELINE 0) = Ok r /\
    revenue r == 0 /\
    contribution_pct r = 0 /\
    ebitda_pct r = 0 /\
    contribution r == - variable_cost r /\
    ebitda r == - variable_cost r - fixed_cost_per_month (with_price BASELINE 0).
Proof.
  eexists. split; [ vm_compute; reflexivity | ].
  split; [ vm_compute; reflexivity | ].
  apply (zero_revenue_reports_zero_percent (with_price BASELINE 0)).
  - vm_compute. reflexivity.
  - vm_compute. reflexivity.
Defined.

(** ** Signs and monotonicity *)

Lemma net_saleable_tons_nonneg (p : ScenarioParameters) (r : MetricsResult) :
  compute_metrics p = Ok r ->
  0 <= run_rate_tph p -> 0 <= planned_hours_per_month p ->
  0 <= operating_hours r <= planned_hours_per_month p /\
  0 <= tons_processed r /\
  0 <= net_saleable_tons r.
Proof.
  intros Hr Hrate Hplanned.
  destruct (compute_metrics_fields p) as [r' [H [Hoh [Htp [Hnet _]]]]].
  rewrite Hr in H. injection H as <-.
  pose proof (clamped_downtime_range p Hplanned) as Hd.
  pose proof (yield_frac_range p) as Hy.
  pose proof (scrap_frac_range p) as Hs.
  assert (Hop : 0 <= operating_hours r <= planned_hours_per_month p)
    by (rewrite Hoh; lra).
  assert (Htons : 0 <= tons_processed r).
  { rewrite Htp. apply Qmult_le_0_compat; [ assumption | apply Hop ]. }
  split; [ exact Hop | split; [ exact Htons | ] ].
  rewrite Hnet.
  apply Qmult_le_0_compat; [ apply Qmult_le_0_compat | ]; lra.
Qed.

(** X10: with non-negative run rate, planned hours, price, per-ton costs
    and fixed cost, operating hours lie between 0 and the planned hours,
    revenue and variable cost are non-negative, and EBITDA <= contribution
    <= revenue. *)
Theorem nonnegative_inputs_order_the_results :
  forall (p : ScenarioParameters) (r : MetricsResult),
    compute_metrics p = Ok r ->
    0 <= run_rate_tph p -> 0 <= planned_hours_per_month p ->
    0 <= price_per_ton p ->
    0 <= energy_cost_per_ton p -> 0 <= labor_cost_per_ton p ->
    0 <= other_variable_cost_per_ton p ->
    0 <= fixed_cost_per_month p ->
    0 <= operating_hours r <= planned_hours_per_month p /\
    0 <= revenue r /\
    0 <= variable_cost r /\
    ebitda r <= contribution r <= revenue r.
Proof.
  intros p r Hr Hrate Hplanned Hprice He Hl Ho Hf.
  destruct (net_saleable_tons_nonneg p r Hr Hrate Hplanned) as [Hop [Htons Hnet]].
  destruct (compute_metrics_fields p)
    as [r' [H [_ [_ [_ [Hrev [Hvc [Hc [_ [_ [Heb _]]]]]]]]]]].
  rewrite Hr in H. injection H as <-.
  assert (Hrev0 : 0 <= revenue r)
    by (rewrite Hrev; apply Qmult_le_0_compat; assumption).
  assert (Hvc0 : 0 <= variable_cost r)
    by (rewrite Hvc; apply Qmult_le_0_compat; [ assumption | lra ]).
  split; [ exact Hop | ].
  split; [ exact Hrev0 | ].
  split; [ exact Hvc0 | ].
  rewrite Heb, Hc. split; lra.
Qed.

Lemma nonnegative_inputs_order_the_results_witness :
  exists r : MetricsResult,
    compute_metrics BASELINE = Ok r /\
    0 <= run_rate_tph BASELINE /\ 0 <= planned_hours_per_month BASELINE /\
    0 <= price_per_ton BASELINE /\
    0 <= energy_cost_per_ton BASELINE /\ 0 <= labor_cost_per_ton BASELINE /\
    0 <= other_variable_cost_per_ton BASELINE /\
    0 <= fixed_cost_per_month BASELINE /\
    0 <= operating_hours r <= planned_hours_per_month BASELINE /\
    0 <= revenue r /\
    0 <= variable_cost r /\
    ebitda r <= contribution r <= revenue r.
Proof.
  eexists. split; [ vm_compute; reflexivity | ].
  do 7 (split; [ unfold Qle; simpl; lia | ]).
  apply (nonnegative_inputs_order_the_results BASELINE);
    [ vm_compute; reflexivity | unfold Qle; simpl; lia .. ].
Defined.

(** X11: with non-negative run rate and planned hours, a higher price never
    lowers revenue, contribution or EBITDA, and leaves tons and variable
    cost as they are. *)
Theorem higher_price_never_lowers_ebitda :
  forall (p : ScenarioParameters) (price : Q) (r r' : MetricsResult),
    compute_metrics p = Ok r ->
    compute_metrics (with_price p price) = Ok r' ->
    0 <= run_rate_tph p -> 0 <= planned_hours_per_month p ->
    price_per_ton p <= price ->
    revenue r <= revenue r' /\
    contribution r <= contribution r' /\
    ebitda r <= ebitda r' /\
    tons_processed r' = tons_processed r /\
    variable_cost r' = variable_cost r.
Proof.
  intros p price r r' Hr Hr' Hrate Hplanned Hprice.
  destruct (net_saleable_tons_nonneg p r Hr Hrate Hplanned) as [_ [_ Hnet0]].
  destruct (compute_metrics_fields p)
    as [s [H [Hoh [Htp [Hnet [Hrev [Hvc [Hc [_ [_ [Heb _]]]]]]]]]]].
  rewrite Hr in H. injection H as <-.
  destruct (compute_metrics_fields (with_price p price))
    as [s' [H' [Hoh' [Htp' [Hnet' [Hrev' [Hvc' [Hc' [_ [_ [Heb' _]]]]]]]]]]].
  rewrite Hr' in H'. injection H' as <-.
  cbn [with_price price_per_ton run_rate_tph planned_hours_per_month
       energy_cost_per_ton labor_cost_per_ton other_variable_cost_per_ton
       fixed_cost_per_month] in *.
  assert (Eoh : operating_hours r' = operating_hours r)
    by (rewrite Hoh, Hoh'; reflexivity).
  assert (Etp : tons_processed r' = tons_processed r)
    by (rewrite Htp, Htp', Eoh; reflexivity).
  assert (Enet : net_saleable_tons r' = net_saleable_tons r)
    by (rewrite Hnet, Hnet', Etp; reflexivity).
  assert (Evc : variable_cost r' = variable_cost r)
    by (rewrite Hvc, Hvc', Etp; reflexivity).
  assert (Hrevle : revenue r <= revenue r').
  { rewrite Hrev, Hrev', Enet. nra. }
  repeat split; try assumption.
  - rewrite Hc, Hc', Evc. lra.
  - rewrite Heb, Heb', Hc, Hc', Evc. lra.
Qed.

Lemma higher_price_never_lowers_ebitda_witness :
  exists r r' : MetricsResult,
    compute_metrics BASELINE = Ok r /\
    compute_metrics (with_price BASELINE 600) = Ok r' /\
    0 <= run_rate_tph BASELINE /\ 0 <= planned_hours_per_month BASELINE /\
    price_per_ton BASELINE <= 600 /\
    revenue r <= revenue r' /\
    contribution r <= contribution r' /\
    ebitda r <= ebitda r' /\
    tons_processed r' = tons_processed r /\
    variable_cost r' = variable_cost r.
Proof.
  eexists. eexists.
  split; [ vm_compute; reflexivity | ].
  split; [ vm_compute; reflexivity | ].
  do 3 (split; [ unfold Qle; simpl; lia | ]).
  apply (higher_price_never_lowers_ebitda BASELINE 600);
    [ vm_compute; reflexivity | vm_compute; reflexivity
    | unfold Qle; simpl; lia .. ].
Defined.

(** X12: with a non-negative run rate, more downtime never gives more
    operating hours or more processed tons, whatever the planned hours and
    wherever the two downtimes lie. *)
Theorem more_downtime_never_adds_tons :
  forall (p : ScenarioParameters) (d1 d2 : Q) (r1 r2 : MetricsResult),
    compute_metrics (with_downtime p d1) = Ok r1 ->
    compute_metrics (with_downtime p d2) = Ok r2 ->
    0 <= run_rate_tph p ->
    d1 <= d2 ->
    operating_hours r2 <= operating_hours r1 /\
    tons_processed r2 <= tons_processed r1.
Proof.
  intros p d1 d2 r1 r2 H1 H2 Hrate Hd.
  destruct (compute_metrics_fields (with_downtime p d1))
    as [s1 [K1 [Hoh1 [Htp1 _]]]].
  rewrite H1 in K1. injection K1 as <-.
  destruct (compute_metrics_fields (with_downtime p d2))
    as [s2 [K2 [Hoh2 [Htp2 _]]]].
  rewrite H2 in K2. injection K2 as <-.
  unfold clamped_downtime in Hoh1, Hoh2.
  cbn [with_downtime downtime_hours planned_hours_per_month run_rate_tph] in *.
  assert (Hoh : operating_hours r2 <= operating_hours r1).
  { rewrite Hoh1, Hoh2. case_min_max; lra. }
  split; [ exact Hoh | ].
  rewrite Htp1, Htp2. nra.
Qed.

Lemma more_downtime_never_adds_tons_witness :
  exists r1 r2 : MetricsResult,
    compute_metrics (with_downtime BASELINE 40) = Ok r1 /\
    compute_metrics (with_downtime BASELINE 100) = Ok r2 /\
    0 <= run_rate_tph BASELINE /\
    40 <= 100 /\
    operating_hours r2 <= operating_hours r1 /\
    tons_processed r2 <= tons_processed r1.
Proof.
  eexists. eexists.
  split; [ vm_compute; reflexivity | ].
  split; [ vm_compute; reflexivity | ].
  do 2 (split; [ unfold Qle; simpl; lia | ]).
  apply (more_downtime_never_adds_tons BASELINE 40 100);
    [ vm_compute; reflexivity | vm_compute; reflexivity
    | unfold Qle; simpl; lia .. ].
Defined.

(** ** Deltas *)

(** X15: for a non-negative tolerance the sign class flips with the sign
    of the delta: minus a positive delta is negative, minus a negative one
    positive, and minus a neutral one neutral. *)
Theorem delta_class_flips_with_sign :
  forall delta tol : Q,
    0 <= tol ->
    (delta_class (- delta) tol = "pos" <-> delta_class delta tol = "neg") /\
    (delta_class (- delta) tol = "neg" <-> delta_class delta tol = "pos") /\
    (delta_class (- delta) tol = "neu" <-> delta_class delta tol = "neu").
Proof.
  intros delta tol Htol.
  rewrite !delta_class_pos_iff, !delta_class_neu_iff.
  rewrite !(delta_class_neg_iff _ _ Htol).
  repeat split; intros; lra.
Qed.

Lemma delta_class_flips_with_sign_witness :
  0 <= default_tol /\
  (delta_class (- 5) default_tol = "pos" <-> delta_class 5 default_tol = "neg") /\
  (delta_class (- 5) default_tol = "neg" <-> delta_class 5 default_tol = "pos") /\
  (delta_class (- 5) default_tol = "neu" <-> delta_class 5 default_tol = "neu").
Proof.
  split; [ unfold default_tol, Qle; simpl; lia | ].
  apply (delta_class_flips_with_sign 5 default_tol).
  unfold default_tol, Qle. simpl. lia.
Defined.

(** A negative tolerance is not rejected: zero is then classified
    positive. *)
Remark negative_tolerance_marks_zero_positive :
  delta_class 0 (-1) = "pos" /\ arrow 0 (-1) = "▲".
Proof. split; reflexivity. Qed.

(** ** The table: coverage and marks *)

(** X16: the groups list each of the twelve keys of a metrics dictionary
    exactly once, and every key of [FORMULAS] is one of them. *)
Theorem groups_cover_every_metric_once :
  forall r : MetricsResult,
    NoDup grouped_metrics /\
    (forall m : string, In m grouped_metrics <-> In m (map fst (items r))) /\
    incl (map fst FORMULAS) (map fst (items r)).
Proof.
  intros r. split; [ | split ].
  - unfold grouped_metrics. simpl.
    repeat (apply NoDup_cons;
            [ simpl; intros H;
              repeat (destruct H as [H | H]; [ discriminate H | ]); exact H | ]).
    apply NoDup_nil.
  - intros m. unfold grouped_metrics. simpl. tauto.
  - intros m. simpl. tauto.
Qed.

(** Run the loops as [run_loops] does, keeping the default tolerance
    folded. *)
Ltac run_loops_keep_tol :=
  cbv -[format_f money0 money2 colorize arrow delta_class default_tol
        formula_div Qminus append
        operating_hours tons_processed net_saleable_tons revenue
        variable_cost contribution contribution_pct fixed_cost ebitda
        ebitda_pct var_cost_per_ton contribution_per_ton].

Lemma colorized_cells_marked (value_text delta_text : string) (d : Q) :
  exists cls glyph : string,
    In (cls, glyph) sign_marks /\
    colorize (value_text ++ " " ++ arrow d default_tol) d =
      "<span class='" ++ cls ++ "'>" ++ (value_text ++ " " ++ glyph) ++ "</span>" /\
    colorize delta_text d =
      "<span class='" ++ cls ++ "'>" ++ delta_text ++ "</span>".
Proof.
  unfold colorize.
  destruct (arrow_delta_class_tol d default_tol)
    as [[Ha Hc] | [[Ha Hc] | [Ha Hc]]]; rewrite Ha, Hc.
  - exists "pos", "▲". split; [ simpl; tauto | split; reflexivity ].
  - exists "neg", "▼". split; [ simpl; tauto | split; reflexivity ].
  - exists "neu", "●". split; [ simpl; tauto | split; reflexivity ].
Qed.

(** X17: in every row of the table that is not a header, the Current and
    the Delta cell are wrapped in the same sign class, and the Current cell
    ends in the glyph of that class. *)
Theorem rows_mark_current_and_delta_alike :
  forall baseline current : MetricsResult,
  exists rows : list Row,
    build_rows baseline current = Ok rows /\
    Forall (fun r : Row =>
              is_header r \/
              exists cls glyph : string,
                In (cls, glyph) sign_marks /\ marked_row cls glyph r)
           rows.
Proof.
  intros baseline current. eexists.
  split; [ run_loops_keep_tol; reflexivity | ].
  repeat (apply Forall_cons;
    [ first
        [ left; repeat split; reflexivity
        | right; unfold marked_row; cbn [Current Delta];
          match goal with
          | |- exists cls glyph, _ /\ exists vt dt,
                 colorize (?v ++ " " ++ arrow ?d default_tol) ?d = _ /\
                 colorize ?t ?d = _ =>
              destruct (colorized_cells_marked v t d)
                as [cls [glyph [Hin [Hc Hd]]]];
              exists cls, glyph; split; [ exact Hin | ];
              exists v, t; split; [ exact Hc | exact Hd ]
          end ]
    | ]).
  apply Forall_nil.
Qed.

Lemma zero_delta_is_neutral (d : Q) :
  d == 0 -> delta_class d default_tol = "neu" /\ arrow d default_tol = "●".
Proof.
  intros E.
  assert (Hc : delta_class d default_tol = "neu").
  { apply delta_class_neu_iff. rewrite E.
    unfold default_tol. split; unfold Qle; simpl; lia. }
  split; [ exact Hc | ].
  destruct (arrow_delta_class_tol d default_tol)
    as [[Ha Hp] | [[Ha Hn] | [Ha _]]].
  - rewrite Hc in Hp. discriminate Hp.
  - rewrite Hc in Hn. discriminate Hn.
  - exact Ha.
Qed.

Lemma zero_delta_cells (value_text delta_text : string) (d : Q) :
  d == 0 ->
  colorize (value_text ++ " " ++ arrow d default_tol) d =
    "<span class='" ++ "neu" ++ "'>" ++ (value_text ++ " " ++ "●") ++ "</span>" /\
  colorize delta_text d =
    "<span class='" ++ "neu" ++ "'>" ++ delta_text ++ "</span>".
Proof.
  intros E. destruct (zero_delta_is_neutral d E) as [Hc Ha].
  unfold colorize. rewrite Hc, Ha. split; reflexivity.
Qed.

(** X18: when baseline and current are numerically equal, every row that
    is not a header is marked neutral: class "neu" on the Current and the
    Delta cell, glyph "●". *)
Theorem equal_scenarios_give_neutral_rows :
  forall baseline current : MetricsResult,
    metrics_eq baseline current ->
    exists rows : list Row,
      build_rows baseline current = Ok rows /\
      Forall (fun r : Row => is_header r \/ marked_row "neu" "●" r) rows.
Proof.
  intros baseline current
    [E1 [E2 [E3 [E4 [E5 [E6 [E7 [E8 [E9 [E10 [E11 E12]]]]]]]]]]].
  eexists.
  split; [ run_loops_keep_tol; reflexivity | ].
  repeat (apply Forall_cons;
    [ first
        [ left; repeat split; reflexivity
        | right; unfold marked_row; cbn [Current Delta];
          match goal with
          | |- exists vt dt,
                 colorize (?v ++ " " ++ arrow ?d default_tol) ?d = _ /\
                 colorize ?t ?d = _ =>
              exists v, t; apply zero_delta_cells; lra
          end ]
    | ]).
  apply Forall_nil.
Qed.

Lemma equal_scenarios_give_neutral_rows_witness :
  metrics_eq baseline_metrics baseline_metrics /\
  exists rows : list Row,
    build_rows baseline_metrics baseline_metrics = Ok rows /\
    Forall (fun r : Row => is_header r \/ marked_row "neu" "●" r) rows.
Proof.
  split; [ unfold metrics_eq; simpl; repeat split; reflexivity | ].
  apply (equal_scenarios_give_neutral_rows baseline_metrics baseline_metrics).
  unfold metrics_eq. simpl. repeat split; reflexivity.
Defined.

(** ** Whole-dollar formatting near zero *)

Lemma round_half_even_small (y : Q) :
  0 <= y -> y <= 1 # 2 -> round_half_even y = 0%Z.
Proof.
  destruct y as [n d]. unfold Qle, round_half_even. cbn [Qnum Qden].
  intros H0 Hh.
  assert (Hn : (0 <= n < Zpos d)%Z) by lia.
  rewrite (Z.div_small n (Zpos d) Hn), (Z.mod_small n (Zpos d) Hn).
  destruct (2 * n ?= Zpos d)%Z eqn:C.
  - reflexivity.
  - reflexivity.
  - apply Z.compare_gt_iff in C. lia.
Qed.

(** X19: an amount from minus one half up to, but not including, zero is
    shown as "$-0" by [money0], and its opposite as "$0". *)
Theorem money0_keeps_sign_of_small_negative :
  forall x : Q,
    - (1 # 2) <= x -> x < 0 ->
    money0 x = "$-0" /\ money0 (- x) = "$0".
Proof.
  intros x Hlo Hneg.
  assert (Ea : Qabs x == - x) by (apply Qabs_neg; lra).
  assert (Eb : Qabs (- x) == - x) by (apply Qabs_pos; lra).
  assert (R1 : round_half_even (Qabs x * inject_Z (10 ^ Z.of_nat 0)) = 0%Z).
  { apply round_half_even_small.
    - change (inject_Z (10 ^ Z.of_nat 0)) with 1. rewrite Ea. lra.
    - change (inject_Z (10 ^ Z.of_nat 0)) with 1. rewrite Ea. lra. }
  assert (R2 : round_half_even (Qabs (- x) * inject_Z (10 ^ Z.of_nat 0)) = 0%Z).
  { apply round_half_even_small.
    - change (inject_Z (10 ^ Z.of_nat 0)) with 1. rewrite Eb. lra.
    - change (inject_Z (10 ^ Z.of_nat 0)) with 1. rewrite Eb. lra. }
  apply Qlt_bool_iff in Hneg as L1.
  assert (L2 : Qlt_bool (- x) 0 = false) by (apply Qlt_bool_false_iff; lra).
  unfold money0, format_f. rewrite R1, R2, L1, L2.
  split; reflexivity.
Qed.

Lemma money0_keeps_sign_of_small_negative_witness :
  - (1 # 2) <= - 0.4 /\ - 0.4 < 0 /\
  money0 (- 0.4) = "$-0" /\ money0 (- - 0.4) = "$0".
Proof.
  split; [ unfold Qle; simpl; lia | ].
  split; [ reflexivity | ].
  apply (money0_keeps_sign_of_small_negative (- 0.4)).
  - unfold Qle. simpl. lia.
  - reflexivity.
Defined.

(** ** Session state *)

Section Dict.
Context {V : Type}.
Implicit Types (d : dict V) (k : string) (v : V).

Lemma getitem_setitem_same d k v : getitem (setitem d k v) k = Ok v.
Proof.
  induction d as [ | [k' w] d IH ]; simpl.
  - rewrite String.eqb_refl. reflexivity.
  - destruct (String.eqb k' k) eqn:E; simpl; rewrite E; [ reflexivity | exact IH ].
Qed.

Lemma getitem_setitem_other d k k' v :
  k <> k' -> getitem (setitem d k v) k' = getitem d k'.
Proof.
  intros Hne. induction d as [ | [k0 w] d IH ]; simpl.
  - apply String.eqb_neq in Hne. rewrite Hne. reflexivity.
  - destruct (String.eqb k0 k) eqn:E; simpl.
    + apply String.eqb_eq in E. subst k0.
      apply String.eqb_neq in Hne. rewrite Hne. reflexivity.
    + rewrite IH. reflexivity.
Qed.

Lemma has_key_true_getitem d k :
  has_key d k = true <-> exists v, getitem d k = Ok v.
Proof.
  induction d as [ | [k0 w] d IH ]; simpl.
  - split; [ discriminate | intros [v H]; discriminate H ].
  - destruct (String.eqb k0 k); [ | exact IH ].
    split; [ intros _; exists w; reflexivity | reflexivity ].
Qed.

Lemma has_key_false_getitem d k :
  has_key d k = false -> getitem d k = Raise (KeyError k).
Proof.
  induction d as [ | [k0 w] d IH ]; simpl.
  - reflexivity.
  - destruct (String.eqb k0 k); [ discriminate | exact IH ].
Qed.

Lemma has_key_in_keys d k : has_key d k = true <-> In k (map fst d).
Proof.
  induction d as [ | [k0 w] d IH ]; simpl.
  - split; [ discriminate | contradiction ].
  - destruct (String.eqb_spec k0 k) as [E | E].
    + split; [ intros _; left; exact E | reflexivity ].
    + rewrite IH. split; [ intros H; right; exact H | ].
      intros [H | H]; [ contradiction | exact H ].
Qed.

Lemma has_key_setitem d k k' v :
  has_key (setitem d k v) k' = (String.eqb k k' || has_key d k')%bool.
Proof.
  induction d as [ | [k0 w] d IH ]; simpl.
  - destruct (String.eqb k k'); reflexivity.
  - destruct (String.eqb_spec k0 k) as [E | E]; simpl.
    + subst k0. destruct (String.eqb k k'); reflexivity.
    + rewrite IH. destruct (String.eqb k0 k'), (String.eqb k k'); reflexivity.
Qed.

(** Writing the value a key already has changes nothing. *)
Lemma setitem_same_value d k v : getitem d k = Ok v -> setitem d k v = d.
Proof.
  induction d as [ | [k0 w] d IH ]; simpl.
  - discriminate.
  - destruct (String.eqb_spec k0 k) as [E | E].
    + intros H. injection H as ->. reflexivity.
    + intros H. rewrite (IH H). reflexivity.
Qed.

(** With distinct keys, [d[k]] is [v] for every item [(k, v)] of [d]. *)
Lemma getitem_of_item d k v :
  NoDup (map fst d) -> In (k, v) d -> getitem d k = Ok v.
Proof.
  induction d as [ | [k0 w] d IH ]; simpl.
  - contradiction.
  - intros Hnd Hin. inversion Hnd as [ | ? ? Hnotin Hnd' ]; subst.
    destruct Hin as [Hin | Hin].
    + injection Hin as -> ->. rewrite String.eqb_refl. reflexivity.
    + destruct (String.eqb_spec k0 k) as [E | E].
      * subst k0. exfalso. apply Hnotin.
        apply (in_map fst) in Hin. exact Hin.
      * apply IH; assumption.
Qed.

Lemma item_of_getitem d k v : getitem d k = Ok v -> In (k, v) d.
Proof.
  induction d as [ | [k0 w] d IH ]; simpl.
  - discriminate.
  - destruct (String.eqb_spec k0 k) as [E | E].
    + intros H. injection H as ->. subst k0. left. reflexivity.
    + intros H. right. apply IH. exact H.
Qed.
End Dict.

Lemma fill_missing_keeps (defaults st : dict Q) (k : string) (v : Q) :
  getitem st k = Ok v -> getitem (fill_missing defaults st) k = Ok v.
Proof.
  unfold fill_missing. revert st.
  induction defaults as [ | [k1 v1] l IH ]; intros st H; simpl.
  - exact H.
  - apply IH. destruct (has_key st k1) eqn:E; [ exact H | ].
    rewrite getitem_setitem_other; [ exact H | ].
    intros ->. apply has_key_false_getitem in E. rewrite E in H. discriminate H.
Qed.

Lemma fill_missing_fills (defaults st : dict Q) (k : string) (v : Q) :
  has_key st k = false -> getitem defaults k = Ok v ->
  getitem (fill_missing defaults st) k = Ok v.
Proof.
  unfold fill_missing. revert st.
  induction defaults as [ | [k1 v1] l IH ]; intros st Hmiss Hdef; simpl in *.
  - discriminate Hdef.
  - destruct (String.eqb_spec k1 k) as [E | E].
    + subst k1. injection Hdef as ->. rewrite Hmiss.
      apply (fill_missing_keeps l). apply getitem_setitem_same.
    + apply IH; [ | exact Hdef ].
      destruct (has_key st k1); [ exact Hmiss | ].
      rewrite has_key_setitem, Hmiss.
      apply String.eqb_neq in E. rewrite E. reflexivity.
Qed.

Lemma overwrite_all_other (defaults st : dict Q) (k : string) :
  ~ In k (map fst defaults) ->
  getitem (overwrite_all defaults st) k = getitem st k.
Proof.
  unfold overwrite_all. revert st.
  induction defaults as [ | [k1 v1] l IH ]; intros st Hnotin; simpl in *.
  - reflexivity.
  - rewrite IH by tauto. apply getitem_setitem_other. tauto.
Qed.

Lemma overwrite_all_sets (defaults st : dict Q) (k : string) (v : Q) :
  NoDup (map fst defaults) -> getitem defaults k = Ok v ->
  getitem (overwrite_all defaults st) k = Ok v.
Proof.
  unfold overwrite_all. revert st.
  induction defaults as [ | [k1 v1] l IH ]; intros st Hnd Hdef; simpl in *.
  - discriminate Hdef.
  - inversion Hnd as [ | ? ? Hnotin Hnd' ]; subst.
    destruct (String.eqb_spec k1 k) as [E | E].
    + subst k1. injection Hdef as ->.
      change (getitem (overwrite_all l (setitem st k v)) k = Ok v).
      rewrite overwrite_all_other by exact Hnotin.
      apply getitem_setitem_same.
    + apply IH; assumption.
Qed.

Lemma overwrite_all_fixed (defaults st : dict Q) :
  Forall (fun kv => getitem st (fst kv) = Ok (snd kv)) defaults ->
  overwrite_all defaults st = st.
Proof.
  unfold overwrite_all.
  induction defaults as [ | [k1 v1] l IH ]; intros H; simpl.
  - reflexivity.
  - inversion H as [ | ? ? H1 Hl ]; subst. simpl in H1.
    rewrite (setitem_same_value _ _ _ H1). apply IH. exact Hl.
Qed.

Lemma fill_missing_fixed (defaults st : dict Q) :
  Forall (fun kv => has_key st (fst kv) = true) defaults ->
  fill_missing defaults st = st.
Proof.
  unfold fill_missing.
  induction defaults as [ | [k1 v1] l IH ]; intros H; simpl.
  - reflexivity.
  - inversion H as [ | ? ? H1 Hl ]; subst. simpl in H1.
    rewrite H1. apply IH. exact Hl.
Qed.

Lemma DEFAULTS_keys_distinct : NoDup (map fst DEFAULTS).
Proof.
  simpl.
  repeat (apply NoDup_cons;
          [ simpl; intros H;
            repeat (destruct H as [H | H]; [ discriminate H | ]); exact H | ]).
  apply NoDup_nil.
Qed.

(** X20: the start-up loop never replaces a value the session state already
    holds, under any key. *)
Theorem init_keeps_existing_values :
  forall (session_state : dict Q) (k : string) (v : Q),
    getitem session_state k = Ok v ->
    getitem (init_session_state session_state) k = Ok v.
Proof.
  intros st k v H. apply fill_missing_keeps. exact H.
Qed.

Lemma init_keeps_existing_values_witness :
  getitem [ ("price_per_ton", 640) ] "price_per_ton" = Ok 640 /\
  getitem (init_session_state [ ("price_per_ton", 640) ]) "price_per_ton" = Ok 640.
Proof.
  split; [ reflexivity | ].
  apply (init_keeps_existing_values [ ("price_per_ton", 640) ] "price_per_ton" 640).
  reflexivity.
Defined.

(** X21: after the start-up loop, a key of [DEFAULTS] that the session
    state lacked holds its default. *)
Theorem init_fills_missing_defaults :
  forall (session_state : dict Q) (k : string) (v : Q),
    has_key session_state k = false ->
    getitem DEFAULTS k = Ok v ->
    getitem (init_session_state session_state) k = Ok v.
Proof.
  intros st k v Hmiss Hdef. apply fill_missing_fills; assumption.
Qed.

Lemma init_fills_missing_defaults_witness :
  has_key [ ("price_per_ton", 640) ] "yield_pct" = false /\
  getitem DEFAULTS "yield_pct" = Ok 95.0 /\
  getitem (init_session_state [ ("price_per_ton", 640) ]) "yield_pct" = Ok 95.0.
Proof.
  split; [ reflexivity | ].
  split; [ reflexivity | ].
  apply (init_fills_missing_defaults [ ("price_per_ton", 640) ] "yield_pct" 95.0);
    reflexivity.
Defined.

(** X22: whatever the session state was, after [reset_to_baseline] each of
    the ten parameter keys holds a value numerically equal to the
    [BASELINE] value of that key. *)
Theorem reset_restores_baseline_values :
  forall session_state : dict Q,
    Forall (fun kb : string * Q =>
              exists v : Q,
                getitem (reset_to_baseline session_state) (fst kb) = Ok v /\
                v == snd kb)
           (params_items BASELINE).
Proof.
  intros st. unfold params_items.
  repeat (apply Forall_cons;
    [ eexists; split;
      [ apply overwrite_all_sets;
        [ exact DEFAULTS_keys_distinct | reflexivity ]
      | reflexivity ]
    | ]).
  apply Forall_nil.
Qed.

(** X23: [reset_to_baseline] touches the keys of [DEFAULTS] only: under
    every other key the session state holds what it held, or still lacks
    the key. *)
Theorem reset_leaves_other_keys :
  forall (session_state : dict Q) (k : string),
    has_key DEFAULTS k = false ->
    getitem (reset_to_baseline session_state) k = getitem session_state k.
Proof.
  intros st k H. apply overwrite_all_other.
  intros Hin. apply has_key_in_keys in Hin. rewrite Hin in H. discriminate H.
Qed.

Lemma reset_leaves_other_keys_witness :
  has_key DEFAULTS "theme" = false /\
  getitem (reset_to_baseline [ ("theme", 1); ("price_per_ton", 640) ]) "theme" =
  getitem [ ("theme", 1); ("price_per_ton", 640) ] "theme".
Proof.
  split; [ reflexivity | ].
  apply (reset_leaves_other_keys [ ("theme", 1); ("price_per_ton", 640) ] "theme").
  reflexivity.
Defined.

(** X24: resetting twice is resetting once, and the start-up loop changes
    nothing in a session state that was just reset. *)
Theorem reset_is_idempotent :
  forall session_state : dict Q,
    reset_to_baseline (reset_to_baseline session_state) =
      reset_to_baseline session_state /\
    init_session_state (reset_to_baseline session_state) =
      reset_to_baseline session_state.
Proof.
  intros st.
  assert (H : Forall (fun kv => getitem (reset_to_baseline st) (fst kv) = Ok (snd kv))
                     DEFAULTS).
  { apply Forall_forall. intros [k v] Hin. simpl.
    apply overwrite_all_sets; [ exact DEFAULTS_keys_distinct | ].
    apply getitem_of_item; [ exact DEFAULTS_keys_distinct | exact Hin ]. }
  split.
  - apply overwrite_all_fixed. exact H.
  - apply fill_missing_fixed.
    apply Forall_forall. intros kv Hin.
    apply has_key_true_getitem. exists (snd kv).
    apply (proj1 (Forall_forall _ _) H). exact Hin.
Qed.
